(** * infra/remote-setup.py: the remote bootstrap runner

    A shallow embedding of the script [infra/remote-setup.py] and the
    properties of its specification.  The script reads a sibling shell
    script, wraps it into an [expect] program, hands that program to the
    [expect] utility through [subprocess.run] and mirrors the result; when
    [expect] is missing it prints a manual recipe instead.

    The script is effectful glue, so the model is a small monad: a reader of
    the environment (what the file system and the process launcher answer),
    a chronological log of everything the script does, and Python
    exceptions. *)

From Stdlib Require Import String Ascii List ZArith Bool Lia.
Import ListNotations.
Open Scope string_scope.
Open Scope Z_scope.

Set Implicit Arguments.

(** ** Python strings *)

Module PyStr.

(** Characters that cannot be typed inside a string literal here. *)
Definition dq : string := String "034"%char EmptyString.
Definition nl : string := String "010"%char EmptyString.
Definition backslash : string := String "092"%char EmptyString.
Definition slash : ascii := "/"%char.

(** [s * n] *)
Fixpoint str_mul (s : string) (n : nat) : string :=
  match n with
  | O => EmptyString
  | S k => s ++ str_mul s k
  end.

(** [bool(s)]: a string is true when it is not empty. *)
Definition truthy (s : string) : bool :=
  match s with
  | EmptyString => false
  | String _ _ => true
  end.

(** [s.startswith(c)] and [s.endswith(c)] for a one-character [c]. *)
Definition startswith (c : ascii) (s : string) : bool :=
  match s with
  | EmptyString => false
  | String a _ => Ascii.eqb a c
  end.

Fixpoint endswith (c : ascii) (s : string) : bool :=
  match s with
  | EmptyString => false
  | String a EmptyString => Ascii.eqb a c
  | String _ r => endswith c r
  end.

(** [s.rfind(c)]: the highest index of [c] in [s], or [-1]. *)
Fixpoint rfind_from (c : ascii) (s : string) (i acc : Z) : Z :=
  match s with
  | EmptyString => acc
  | String a r => rfind_from c r (i + 1) (if Ascii.eqb a c then i else acc)
  end.

Definition rfind (c : ascii) (s : string) : Z := rfind_from c s 0 (-1).

(** [s[:i]] for [0 <= i]. *)
Definition slice_to (s : string) (i : Z) : string :=
  substring 0 (Z.to_nat i) s.

(** [s.rstrip(c)] *)
Fixpoint rstrip (c : ascii) (s : string) : string :=
  match s with
  | EmptyString => EmptyString
  | String a r =>
      match rstrip c r with
      | EmptyString => if Ascii.eqb a c then EmptyString else String a EmptyString
      | r' => String a r'
      end
  end.

(** [needle in hay] *)
Fixpoint contains (needle hay : string) : bool :=
  prefix needle hay ||
  match hay with
  | EmptyString => false
  | String _ r => contains needle r
  end.

(** The text that [print] writes for its positional arguments: they are
    joined by one space and a newline ends the line. *)
Definition print_text (args : list string) : string :=
  String.concat " " args ++ nl.

End PyStr.

(** ** [os.path] (the POSIX flavour) *)

Module OsPath.
Import PyStr.

Definition sep : string := String slash EmptyString.

(** [posixpath.dirname] *)
Definition dirname (p : string) : string :=
  let i := rfind slash p + 1 in
  let head := slice_to p i in
  if truthy head && negb (head =? str_mul sep (String.length head))%string
  then rstrip slash head
  else head.

(** [posixpath.join] with one component after the first. *)
Definition join (a b : string) : string :=
  if startswith slash b then b
  else if negb (truthy a) || endswith slash a then a ++ b
  else a ++ sep ++ b.

End OsPath.

(** ** The constants of the script *)

Definition VPS_IP : string := "159.89.113.242".
Definition VPS_USER : string := "root".
Definition VPS_PASS : string := "AVallon1231402@rooot".

(** ** The session transcript

    The f-string of lines 16-28, written as the concatenation of its
    literal pieces and its three interpolated names.  The doubled backslash
    of the source is one backslash in the text, followed by the letter r. *)

Section Transcript.
Import PyStr.

Definition expect_script_of (user ip pass setup_script : string) : string :=
  "#!/usr/bin/expect -f" ++ nl ++
  "set timeout 300" ++ nl ++
  "spawn ssh -o StrictHostKeyChecking=no " ++ user ++ "@" ++ ip ++ nl ++
  "expect " ++ dq ++ "password:" ++ dq ++ nl ++
  "send " ++ dq ++ pass ++ backslash ++ "r" ++ dq ++ nl ++
  "expect " ++ dq ++ "# " ++ dq ++ nl ++
  "send " ++ dq ++ "bash << 'REMOTE_SCRIPT'" ++ backslash ++ "r" ++ dq ++ nl ++
  "send " ++ dq ++ setup_script ++ dq ++ nl ++
  "send " ++ dq ++ "REMOTE_SCRIPT" ++ backslash ++ "r" ++ dq ++ nl ++
  "expect " ++ dq ++ "# " ++ dq ++ nl ++
  "send " ++ dq ++ "exit" ++ backslash ++ "r" ++ dq ++ nl ++
  "expect eof" ++ nl.

Definition expect_script (setup_script : string) : string :=
  expect_script_of VPS_USER VPS_IP VPS_PASS setup_script.

End Transcript.

(** ** Python values, exceptions and the environment *)

(** The exceptions the run can meet.  [sys.exit(n)] raises [SystemExit n]. *)
Inductive pyexn : Type :=
| FileNotFoundError
| PermissionError
| IsADirectoryError
| UnicodeDecodeError
| ValueError
| TimeoutExpired
| SystemExit (code : Z).

(** [isinstance(e, FileNotFoundError)], the test of the [except] clause. *)
Definition is_FileNotFoundError (e : pyexn) : bool :=
  match e with
  | FileNotFoundError => true
  | _ => false
  end.

(** [subprocess.CompletedProcess], with [capture_output=True, text=True]. *)
Record CompletedProcess : Type := mkCompleted {
  stdout : string;
  stderr : string;
  returncode : Z
}.

(** What a call of [subprocess.run] comes to. *)
Inductive run_outcome : Type :=
| Returns (r : CompletedProcess)
| Raises (e : pyexn).

(** Whether the child process ran.  It did when the call returned, when it
    was killed at the timeout, and when its captured output could not be
    decoded: with [text=True] the output is decoded after the child has
    ended.  The other exceptions come from a launch that failed before
    [expect] ran: the missing executable, a permission, a bad argument. *)
Definition child_started (o : run_outcome) : bool :=
  match o with
  | Returns _ => true
  | Raises TimeoutExpired => true
  | Raises UnicodeDecodeError => true
  | Raises _ => false
  end.

(** The environment of one run: the path of the running script, what reading
    a path as text gives, and what launching a command line with a timeout
    gives. *)
Record world : Type := mkWorld {
  dunder_file : string;
  fs_read : string -> string + pyexn;
  launcher : list string -> Z -> run_outcome
}.

Inductive pyval : Type :=
| VStr (s : string)
| VProc (r : CompletedProcess).

Inductive stream : Type := Stdout | Stderr.

(** What the script does, in the order it does it. *)
Inductive event : Type :=
| EvBind (name : string) (value : pyval)
| EvOpen (path : string) (opened : bool)
| EvRun (argv : list string) (timeout : Z) (started : bool)
| EvWrite (s : stream) (text : string).

(** ** The monad of the script *)

Definition M (A : Type) : Type :=
  world -> list event -> (A + pyexn) * list event.

Definition ret {A} (a : A) : M A := fun _ tr => (inl a, tr).

Definition bind {A B} (c : M A) (k : A -> M B) : M B :=
  fun w tr =>
    match c w tr with
    | (inl a, tr') => k a w tr'
    | (inr e, tr') => (inr e, tr')
    end.

Definition raise {A} (e : pyexn) : M A := fun _ tr => (inr e, tr).

Definition emit (ev : event) : M unit := fun _ tr => (inl tt, (tr ++ [ev])%list).

Definition ask : M world := fun w tr => (inl w, tr).

Declare Scope py_scope.
Delimit Scope py_scope with py.
Notation "x <- c ;; k" := (bind c (fun x => k))
  (at level 61, c at next level, right associativity) : py_scope.
Notation "c ;; k" := (bind c (fun _ => k))
  (at level 61, right associativity) : py_scope.
Open Scope py_scope.

(** [try: body except <catches>: handler] *)
Definition try_except {A} (body : M A) (catches : pyexn -> bool)
    (handler : M A) : M A :=
  fun w tr =>
    match body w tr with
    | (inl a, tr') => (inl a, tr')
    | (inr e, tr') => if catches e then handler w tr' else (inr e, tr')
    end.

(** [name = value] at module level. *)
Definition assign (name : string) (v : pyval) : M unit := emit (EvBind name v).

(** [with open(path, 'r') as f: ... f.read()] *)
Definition open_read (path : string) : M string :=
  w <- ask ;;
  match fs_read w path with
  | inl text => emit (EvOpen path true) ;; ret text
  | inr e => emit (EvOpen path false) ;; raise e
  end.

(** [subprocess.run(argv, capture_output=True, text=True, timeout=t)] *)
Definition subprocess_run (argv : list string) (t : Z) : M CompletedProcess :=
  w <- ask ;;
  let o := launcher w argv t in
  emit (EvRun argv t (child_started o)) ;;
  match o with
  | Returns r => ret r
  | Raises e => raise e
  end.

(** [print(..., file=s)] *)
Definition print (s : stream) (args : list string) : M unit :=
  emit (EvWrite s (PyStr.print_text args)).

Definition sys_exit {A} (code : Z) : M A := raise (SystemExit code).

Definition when (b : bool) (c : M unit) : M unit := if b then c else ret tt.

(** ** The script *)

Definition rule : string := PyStr.nl ++ PyStr.str_mul "=" 60.

(** Lines 43-53, the body of the [except] clause. *)
Definition fallback : M unit :=
  print Stdout ["expect not found. Trying alternative method..."] ;;
  print Stdout [rule] ;;
  print Stdout ["Please run this command manually:"] ;;
  print Stdout [PyStr.str_mul "=" 60] ;;
  print Stdout [PyStr.nl ++ "scp infra/setup-on-server.sh root@" ++ VPS_IP ++ ":/tmp/"] ;;
  print Stdout [PyStr.nl ++ "ssh root@" ++ VPS_IP] ;;
  print Stdout ["chmod +x /tmp/setup-on-server.sh"] ;;
  print Stdout ["/tmp/setup-on-server.sh"] ;;
  print Stdout [rule] ;;
  sys_exit 1.

(** Lines 32-41, the body of the [try]. *)
Definition attempt (transcript : string) : M unit :=
  result <- subprocess_run ["expect"; "-c"; transcript] 600 ;;
  assign "result" (VProc result) ;;
  print Stdout [stdout result] ;;
  when (PyStr.truthy (stderr result))
       (print Stderr ["STDERR:"; stderr result]) ;;
  sys_exit (returncode result).

(** The path of line 11. *)
Definition script_path_of (w : world) : string :=
  OsPath.join (OsPath.dirname (dunder_file w)) "setup-on-server.sh".

(** The module body, lines 11-53. *)
Definition main : M unit :=
  w <- ask ;;
  let script_path := script_path_of w in
  assign "script_path" (VStr script_path) ;;
  setup_script <- open_read script_path ;;
  assign "setup_script" (VStr setup_script) ;;
  let transcript := expect_script setup_script in
  assign "expect_script" (VStr transcript) ;;
  try_except (attempt transcript) is_FileNotFoundError fallback.

(** ** The interpreter around the script

    A run ends with the log of the script, the exit status of the process
    and, when an exception other than [SystemExit] reached the top level, the
    exception whose traceback the interpreter writes to the error stream.
    [status] is the code the interpreter ends with: the argument of
    [sys.exit], 1 after an uncaught exception, 0 when the module body runs to
    its end.  The exit status the parent process observes is [exit_status]
    below.  The text of a traceback is not modelled, and it is no part of
    what [written] reads off the log. *)
Record finished : Type := mkFinished {
  log : list event;
  status : Z;
  traceback : option pyexn
}.

Definition python (w : world) : finished :=
  match main w [] with
  | (inl _, tr) => mkFinished tr 0 None
  | (inr (SystemExit c), tr) => mkFinished tr c None
  | (inr e, tr) => mkFinished tr 1 (Some e)
  end.

(** The exit status of the process as its parent sees it: the operating
    system keeps the low eight bits of the code the interpreter ends with, so
    a code from 0 to 255 is kept and the code [-N] of a child that signal [N]
    killed becomes [256 - N]. *)
Definition exit_status (f : finished) : Z := status f mod 256.

(** ** Reading a log *)

(** The text the script wrote to a stream. *)
Fixpoint written (s : stream) (tr : list event) : string :=
  match tr with
  | [] => EmptyString
  | EvWrite Stdout text :: tr' =>
      match s with Stdout => text ++ written s tr' | Stderr => written s tr' end
  | EvWrite Stderr text :: tr' =>
      match s with Stderr => text ++ written s tr' | Stdout => written s tr' end
  | _ :: tr' => written s tr'
  end.

(** The calls of [subprocess.run]: command line and timeout. *)
Fixpoint runs (tr : list event) : list (list string * Z) :=
  match tr with
  | [] => []
  | EvRun argv t _ :: tr' => (argv, t) :: runs tr'
  | _ :: tr' => runs tr'
  end.

(** The child processes that ran.  The script does no networking of its own:
    the only connection is the one the child opens. *)
Fixpoint children (tr : list event) : list (list string) :=
  match tr with
  | [] => []
  | EvRun argv _ true :: tr' => argv :: children tr'
  | _ :: tr' => children tr'
  end.

(** The values a global name was bound to, oldest first. *)
Fixpoint bindings (name : string) (tr : list event) : list pyval :=
  match tr with
  | [] => []
  | EvBind n v :: tr' =>
      if (n =? name)%string then v :: bindings name tr' else bindings name tr'
  | _ :: tr' => bindings name tr'
  end.

(** ** Vocabulary of the properties *)

(** [s] occurs in [t]. *)
Definition Substring (s t : string) : Prop :=
  exists pre post, t = pre ++ s ++ post.

(** A double-quoted Tcl word, and the two characters Tcl reads as a carriage
    return. *)
Definition quoted (s : string) : string := PyStr.dq ++ s ++ PyStr.dq.
Definition cr : string := PyStr.backslash ++ "r".

(** Lines, each ended by a newline. *)
Fixpoint unlines (ls : list string) : string :=
  match ls with
  | [] => EmptyString
  | l :: ls' => l ++ PyStr.nl ++ unlines ls'
  end.

(** The session as the specification describes it, one [expect] command for
    each step, to be compared with the text the script builds: the timeout,
    the connection, the password prompt and the password, the shell prompt,
    the here-document opened, the bootstrap script in one [send], the
    here-document closed, the prompt again, the exit command, the end of the
    session. *)
Definition described_session (user ip pass body : string) : list string :=
  [ "set timeout 300";
    "spawn ssh -o StrictHostKeyChecking=no " ++ user ++ "@" ++ ip;
    "expect " ++ quoted "password:";
    "send " ++ quoted (pass ++ cr);
    "expect " ++ quoted "# ";
    "send " ++ quoted ("bash << 'REMOTE_SCRIPT'" ++ cr);
    "send " ++ quoted body;
    "send " ++ quoted ("REMOTE_SCRIPT" ++ cr);
    "expect " ++ quoted "# ";
    "send " ++ quoted ("exit" ++ cr);
    "expect eof" ].

(** The command line of line 33. *)
Definition expect_argv (body : string) : list string :=
  ["expect"; "-c"; expect_script body].

(** The log up to and including the construction of the transcript. *)
Definition prologue (w : world) (body : string) : list event :=
  [ EvBind "script_path" (VStr (script_path_of w));
    EvOpen (script_path_of w) true;
    EvBind "setup_script" (VStr body);
    EvBind "expect_script" (VStr (expect_script body)) ].

(** What the [except] clause writes, and the text it amounts to. *)
Definition fallback_events : list event :=
  [ EvWrite Stdout (PyStr.print_text ["expect not found. Trying alternative method..."]);
    EvWrite Stdout (PyStr.print_text [rule]);
    EvWrite Stdout (PyStr.print_text ["Please run this command manually:"]);
    EvWrite Stdout (PyStr.print_text [PyStr.str_mul "=" 60]);
    EvWrite Stdout (PyStr.print_text
      [PyStr.nl ++ "scp infra/setup-on-server.sh root@" ++ VPS_IP ++ ":/tmp/"]);
    EvWrite Stdout (PyStr.print_text [PyStr.nl ++ "ssh root@" ++ VPS_IP]);
    EvWrite Stdout (PyStr.print_text ["chmod +x /tmp/setup-on-server.sh"]);
    EvWrite Stdout (PyStr.print_text ["/tmp/setup-on-server.sh"]);
    EvWrite Stdout (PyStr.print_text [rule]) ].

Definition fallback_text : string := written Stdout fallback_events.

(** The texts written to a stream, one for each [print]. *)
Fixpoint writes (s : stream) (tr : list event) : list string :=
  match tr with
  | [] => []
  | EvWrite Stdout text :: tr' =>
      match s with Stdout => text :: writes s tr' | Stderr => writes s tr' end
  | EvWrite Stderr text :: tr' =>
      match s with Stderr => text :: writes s tr' | Stdout => writes s tr' end
  | _ :: tr' => writes s tr'
  end.

(** The same environment, except that every launch comes to [o]. *)
Definition answering (w : world) (o : run_outcome) : world :=
  mkWorld (dunder_file w) (fs_read w) (fun _ _ => o).

(** ** Sample environments *)

Definition here : string := "infra/remote-setup.py".

(** A file system holding the listed files and nothing else. *)
Fixpoint on_disk (files : list (string * string)) (path : string)
    : string + pyexn :=
  match files with
  | [] => inr FileNotFoundError
  | (p, text) :: files' =>
      if (p =? path)%string then inl text else on_disk files' path
  end.

Definition bootstrap : list (string * string) :=
  [("infra/setup-on-server.sh", "echo hello")].

(** [expect] is installed and the session goes well. *)
Definition w_ok : world :=
  mkWorld here (on_disk bootstrap) (fun _ _ => Returns (mkCompleted "ok" EmptyString 0)).

(** [expect] is installed and the session fails with a message. *)
Definition w_refused : world :=
  mkWorld here (on_disk bootstrap)
    (fun _ _ => Returns (mkCompleted "spawn ssh" "Permission denied" 7)).

(** [expect] is killed by signal 9 during the session: [subprocess] reports
    the return code -9. *)
Definition w_killed : world :=
  mkWorld here (on_disk bootstrap)
    (fun _ _ => Returns (mkCompleted EmptyString EmptyString (-9))).

(** [expect] is not installed. *)
Definition w_no_expect : world :=
  mkWorld here (on_disk bootstrap) (fun _ _ => Raises FileNotFoundError).

(** The session outlives the timeout. *)
Definition w_slow : world :=
  mkWorld here (on_disk bootstrap) (fun _ _ => Raises TimeoutExpired).

(** Neither the bootstrap script nor [expect] is there. *)
Definition w_bare : world :=
  mkWorld here (on_disk []) (fun _ _ => Raises FileNotFoundError).

(** ** Vocabulary of the further properties *)

(** The paths the script opened, oldest first. *)
Fixpoint opens (tr : list event) : list string :=
  match tr with
  | [] => []
  | EvOpen p _ :: tr' => p :: opens tr'
  | _ :: tr' => opens tr'
  end.

(** What follows the call of [subprocess.run] in the log, by the outcome of
    the call: the mirrored result, the fallback, or nothing. *)
Definition epilogue (o : run_outcome) : list event :=
  match o with
  | Returns r =>
      ([ EvBind "result" (VProc r);
         EvWrite Stdout (PyStr.print_text [stdout r]) ] ++
       (if PyStr.truthy (stderr r)
        then [EvWrite Stderr (PyStr.print_text ["STDERR:"; stderr r])]
        else []))%list
  | Raises FileNotFoundError => fallback_events
  | Raises _ => []
  end.

(** No separator in a path component; nothing but separators. *)
Fixpoint slash_free (s : string) : bool :=
  match s with
  | EmptyString => true
  | String a r => negb (Ascii.eqb a PyStr.slash) && slash_free r
  end.

Fixpoint only_slashes (s : string) : bool :=
  match s with
  | EmptyString => true
  | String a r => Ascii.eqb a PyStr.slash && only_slashes r
  end.

(** The environment raises errors of its own only: neither the file system
    nor the launcher raises [SystemExit]. *)
Definition raises_no_exit (w : world) : Prop :=
  (forall (p : string) (c : Z), fs_read w p <> inr (SystemExit c))
  /\ (forall (argv : list string) (t c : Z),
        launcher w argv t <> Raises (SystemExit c)).

(** The text the script mirrors to a stream when the session returned [r]. *)
Definition mirrored (s : stream) (r : CompletedProcess) : string :=
  match s with
  | Stdout => stdout r ++ PyStr.nl
  | Stderr => "STDERR: " ++ stderr r ++ PyStr.nl
  end.

(** The bootstrap script is there and cannot be read. *)
Definition w_denied : world :=
  mkWorld here (fun _ => inr PermissionError)
    (fun _ _ => Returns (mkCompleted "ok" EmptyString 0)).

(** The session echoes what it is sent. *)
Definition w_echo : world :=
  mkWorld here (on_disk bootstrap)
    (fun _ _ => Returns (mkCompleted ("password: " ++ VPS_PASS) EmptyString 0)).

(** The script is started by its bare name, from its own directory. *)
Definition w_cwd : world :=
  mkWorld "remote-setup.py" (on_disk [("setup-on-server.sh", "echo hello")])
    (fun _ _ => Returns (mkCompleted "ok" EmptyString 0)).

(** The script is started by an absolute path. *)
Definition w_abs : world :=
  mkWorld "/opt/avallon/infra/remote-setup.py"
    (on_disk [("/opt/avallon/infra/setup-on-server.sh", "echo hello")])
    (fun _ _ => Returns (mkCompleted "ok" EmptyString 0)).

Ltac run_script :=
  cbv [main attempt fallback open_read subprocess_run print assign sys_exit
       when try_except bind ret raise emit ask].

(** * Properties *)

(** ** Strings *)

Lemma append_assoc (a b c : string) : (a ++ b) ++ c = a ++ (b ++ c).
Proof.
  induction a as [|x a IH]; simpl.
  - reflexivity.
  - now rewrite IH.
Qed.

Lemma append_empty_r (a : string) : a ++ EmptyString = a.
Proof.
  induction a as [|x a IH]; simpl; [reflexivity | now rewrite IH].
Qed.

Lemma Substring_refl (s : string) : Substring s s.
Proof.
  exists EmptyString, EmptyString. simpl. now rewrite append_empty_r.
Qed.

Lemma Substring_trans (a b c : string) :
  Substring a b -> Substring b c -> Substring a c.
Proof.
  intros (p1 & q1 & ->) (p2 & q2 & ->).
  exists (p2 ++ p1), (q1 ++ q2).
  now rewrite !append_assoc.
Qed.

Lemma Substring_app_l (s p t : string) : Substring s t -> Substring s (p ++ t).
Proof.
  intros (pre & post & ->). exists (p ++ pre), post. now rewrite append_assoc.
Qed.

Lemma prefix_split (s t : string) :
  prefix s t = true -> exists post, t = s ++ post.
Proof.
  revert t; induction s as [|a s IH]; intros t H.
  - now exists t.
  - destruct t as [|b t]; simpl in H; [discriminate|].
    destruct (ascii_dec a b) as [->|]; [|discriminate].
    destruct (IH _ H) as [post ->]. now exists post.
Qed.

Lemma contains_sound (needle hay : string) :
  PyStr.contains needle hay = true -> Substring needle hay.
Proof.
  induction hay as [|c hay IH]; cbn [PyStr.contains]; intros H.
  - destruct needle; [|discriminate]. apply Substring_refl.
  - apply orb_true_iff in H as [H|H].
    + destruct (prefix_split _ _ H) as [post E]. exists EmptyString, post. exact E.
    + destruct (IH H) as (pre & post & ->). now exists (String c pre), post.
Qed.

Lemma truthy_true (s : string) : PyStr.truthy s = true <-> s <> EmptyString.
Proof.
  destruct s; simpl; split; intro H; try reflexivity; try discriminate.
  now contradiction H.
Qed.

(** ** The script at work on the sample environments *)

Example dirname_of_here : OsPath.dirname here = "infra".
Proof. reflexivity. Qed.

Example dirname_collapses_trailing_separators :
  OsPath.dirname "/srv//remote-setup.py" = "/srv"
  /\ OsPath.dirname "remote-setup.py" = EmptyString
  /\ OsPath.dirname "/remote-setup.py" = "/".
Proof. repeat split. Qed.

Example script_path_of_here :
  script_path_of w_ok = "infra/setup-on-server.sh".
Proof. reflexivity. Qed.

Example join_without_directory :
  OsPath.join EmptyString "setup-on-server.sh" = "setup-on-server.sh".
Proof. reflexivity. Qed.

Example print_joins_with_a_space :
  PyStr.print_text ["STDERR:"; "no route"] = "STDERR: no route" ++ PyStr.nl.
Proof. reflexivity. Qed.

Example run_of_w_ok :
  python w_ok =
    mkFinished
      [ EvBind "script_path" (VStr "infra/setup-on-server.sh");
        EvOpen "infra/setup-on-server.sh" true;
        EvBind "setup_script" (VStr "echo hello");
        EvBind "expect_script" (VStr (expect_script "echo hello"));
        EvRun ["expect"; "-c"; expect_script "echo hello"] 600 true;
        EvBind "result" (VProc (mkCompleted "ok" EmptyString 0));
        EvWrite Stdout ("ok" ++ PyStr.nl) ]
      0 None.
Proof. reflexivity. Qed.

Example run_of_w_bare :
  python w_bare =
    mkFinished
      [ EvBind "script_path" (VStr "infra/setup-on-server.sh");
        EvOpen "infra/setup-on-server.sh" false ]
      1 (Some FileNotFoundError).
Proof. reflexivity. Qed.

(** ** The four ways a run can go

    Each lemma gives the whole result of [main] from what the environment
    answers; the properties below are read off these equations. *)

Lemma main_unreadable (w : world) (e : pyexn) :
  fs_read w (script_path_of w) = inr e ->
  main w [] =
    (inr e, [ EvBind "script_path" (VStr (script_path_of w));
              EvOpen (script_path_of w) false ]).
Proof.
  intros Hread. run_script. rewrite Hread. reflexivity.
Qed.

Lemma main_returns (w : world) (body : string) (r : CompletedProcess) :
  fs_read w (script_path_of w) = inl body ->
  launcher w (expect_argv body) 600 = Returns r ->
  main w [] =
    (inr (SystemExit (returncode r)),
     (prologue w body ++
      [ EvRun (expect_argv body) 600 true;
        EvBind "result" (VProc r);
        EvWrite Stdout (PyStr.print_text [stdout r]) ] ++
      (if PyStr.truthy (stderr r)
       then [EvWrite Stderr (PyStr.print_text ["STDERR:"; stderr r])]
       else []))%list).
Proof.
  intros Hread Hrun. unfold expect_argv in *. run_script.
  rewrite Hread. run_script. rewrite Hrun.
  destruct (PyStr.truthy (stderr r)); reflexivity.
Qed.

Lemma main_missing_utility (w : world) (body : string) :
  fs_read w (script_path_of w) = inl body ->
  launcher w (expect_argv body) 600 = Raises FileNotFoundError ->
  main w [] =
    (inr (SystemExit 1),
     (prologue w body ++ [EvRun (expect_argv body) 600 false] ++
      fallback_events)%list).
Proof.
  intros Hread Hrun. unfold expect_argv in *. run_script.
  rewrite Hread. run_script. rewrite Hrun. reflexivity.
Qed.

Lemma main_propagates (w : world) (body : string) (e : pyexn) :
  fs_read w (script_path_of w) = inl body ->
  launcher w (expect_argv body) 600 = Raises e ->
  is_FileNotFoundError e = false ->
  main w [] =
    (inr e,
     (prologue w body ++
      [EvRun (expect_argv body) 600 (child_started (Raises e))])%list).
Proof.
  intros Hread Hrun Hother. unfold expect_argv in *. run_script.
  rewrite Hread. run_script. rewrite Hrun. simpl app.
  rewrite Hother. reflexivity.
Qed.

(** ** The transcript, line by line *)

Lemma expect_script_of_lines (user ip pass body : string) :
  expect_script_of user ip pass body =
  unlines ("#!/usr/bin/expect -f" :: described_session user ip pass body).
Proof.
  unfold expect_script_of, described_session, unlines, quoted, cr.
  repeat rewrite append_assoc.
  reflexivity.
Qed.

Lemma Substring_line (l : string) (ls : list string) :
  In l ls -> Substring l (unlines ls).
Proof.
  induction ls as [|x ls IH]; intros Hin; [contradiction|].
  destruct Hin as [->|Hin]; cbn [unlines].
  - exists EmptyString, (PyStr.nl ++ unlines ls). reflexivity.
  - apply Substring_app_l, Substring_app_l. now apply IH.
Qed.

Lemma Substring_inside (pre s post : string) : Substring s (pre ++ s ++ post).
Proof. now exists pre, post. Qed.

Lemma expect_script_lines (body : string) :
  expect_script body =
  unlines ("#!/usr/bin/expect -f" ::
           described_session VPS_USER VPS_IP VPS_PASS body).
Proof. apply expect_script_of_lines. Qed.

Lemma send_body_in_transcript (body : string) :
  Substring ("send " ++ quoted body) (expect_script body).
Proof.
  rewrite expect_script_lines. apply Substring_line. simpl. tauto.
Qed.

Lemma body_in_transcript (body : string) :
  Substring body (expect_script body).
Proof.
  apply Substring_trans with (b := "send " ++ quoted body).
  - apply (Substring_inside ("send " ++ PyStr.dq) body PyStr.dq).
  - apply send_body_in_transcript.
Qed.

Lemma password_in_transcript (body : string) :
  Substring VPS_PASS (expect_script body).
Proof.
  rewrite expect_script_lines.
  apply Substring_trans with (b := "send " ++ quoted (VPS_PASS ++ cr)).
  - unfold quoted. rewrite append_assoc.
    apply (Substring_inside ("send " ++ PyStr.dq) VPS_PASS (cr ++ PyStr.dq)).
  - apply Substring_line. simpl. tauto.
Qed.

(** C3: for every bootstrap script body the transcript is, after the
    interpreter line, exactly the described session: the 300 second timeout,
    the ssh connection without host-key checking, the password prompt, the
    password, the shell prompt, the opening of the here-document, the whole
    body in one send, the closing of the here-document, the prompt, the exit
    command and the end of the session, in this order.  The body and the
    password occur in it as they are, and for the body [echo hello] the text
    holds the command that sends it. *)
Theorem transcript_is_the_described_session (body : string) :
  expect_script body =
    unlines ("#!/usr/bin/expect -f" ::
             described_session VPS_USER VPS_IP VPS_PASS body)
  /\ Substring ("send " ++ quoted body) (expect_script body)
  /\ Substring VPS_PASS (expect_script body)
  /\ Substring ("send " ++ quoted "echo hello") (expect_script "echo hello").
Proof.
  split; [apply expect_script_lines|].
  split; [apply send_body_in_transcript|].
  split; [apply password_in_transcript|].
  apply contains_sound. vm_compute. reflexivity.
Qed.

(** ** Reading the log of a whole run *)

Lemma written_app (s : stream) (a b : list event) :
  written s (a ++ b)%list = written s a ++ written s b.
Proof.
  induction a as [|[n v|p o|argv t st|[] text] a IH]; simpl; try assumption.
  - reflexivity.
  - destruct s; [now rewrite IH, append_assoc | assumption].
  - destruct s; [assumption | now rewrite IH, append_assoc].
Qed.

Lemma python_unreadable (w : world) :
  fs_read w (script_path_of w) = inr FileNotFoundError ->
  python w =
    mkFinished [ EvBind "script_path" (VStr (script_path_of w));
                 EvOpen (script_path_of w) false ]
               1 (Some FileNotFoundError).
Proof.
  intros Hread. unfold python. now rewrite (main_unreadable _ Hread).
Qed.

Lemma python_returns (w : world) (body : string) (r : CompletedProcess) :
  fs_read w (script_path_of w) = inl body ->
  launcher w (expect_argv body) 600 = Returns r ->
  python w =
    mkFinished
      (prologue w body ++
       [ EvRun (expect_argv body) 600 true;
         EvBind "result" (VProc r);
         EvWrite Stdout (PyStr.print_text [stdout r]) ] ++
       (if PyStr.truthy (stderr r)
        then [EvWrite Stderr (PyStr.print_text ["STDERR:"; stderr r])]
        else []))%list
      (returncode r) None.
Proof.
  intros Hread Hrun. unfold python. now rewrite (main_returns _ Hread Hrun).
Qed.

Lemma python_missing_utility (w : world) (body : string) :
  fs_read w (script_path_of w) = inl body ->
  launcher w (expect_argv body) 600 = Raises FileNotFoundError ->
  python w =
    mkFinished
      (prologue w body ++ [EvRun (expect_argv body) 600 false] ++
       fallback_events)%list
      1 None.
Proof.
  intros Hread Hrun. unfold python.
  now rewrite (main_missing_utility _ Hread Hrun).
Qed.

Lemma print_text_one (s : string) : PyStr.print_text [s] = s ++ PyStr.nl.
Proof. reflexivity. Qed.

Lemma print_text_two (a b : string) :
  PyStr.print_text [a; b] = a ++ " " ++ b ++ PyStr.nl.
Proof.
  unfold PyStr.print_text. cbn [String.concat]. now rewrite !append_assoc.
Qed.

(** ** The success path *)

(** C1, as the specification words it, fails: when signal 9 kills [expect]
    the return code is -9, the script hands -9 to [sys.exit], and the exit
    status of the script is 247, not the return code. *)
Lemma killed_child_exit_status :
  launcher w_killed (expect_argv "echo hello") 600
    = Returns (mkCompleted EmptyString EmptyString (-9))
  /\ main w_killed [] = (inr (SystemExit (-9)), log (python w_killed))
  /\ exit_status (python w_killed) = 247.
Proof.
  repeat split.
Qed.

(** C1, amended: when the automation utility is found and returns, the
    script prints the captured standard output, prints the captured standard
    error to the error stream exactly when it is not empty, and calls
    [sys.exit] with the return code of the subprocess.  The exit status of
    the process is that code modulo 256: every return code from 0 to 255 is
    the exit status as it is, and the return code [-N] of a child killed by
    signal [N] gives the exit status [256 - N]. *)
Theorem completed_run_is_mirrored
    (w : world) (body : string) (r : CompletedProcess) :
  fs_read w (script_path_of w) = inl body ->
  launcher w (expect_argv body) 600 = Returns r ->
  written Stdout (log (python w)) = stdout r ++ PyStr.nl
  /\ (written Stderr (log (python w)) <> EmptyString <-> stderr r <> EmptyString)
  /\ (stderr r <> EmptyString ->
      Substring (stderr r) (written Stderr (log (python w))))
  /\ main w [] = (inr (SystemExit (returncode r)), log (python w))
  /\ exit_status (python w) = returncode r mod 256
  /\ (0 <= returncode r <= 255 -> exit_status (python w) = returncode r)
  /\ (-255 <= returncode r < 0 ->
      exit_status (python w) = 256 + returncode r).
Proof.
  intros Hread Hrun.
  assert (Hexit : exit_status (python w) = returncode r mod 256)
    by now rewrite (python_returns _ Hread Hrun).
  assert (Hstreams :
    written Stdout (log (python w)) = stdout r ++ PyStr.nl
    /\ (written Stderr (log (python w)) <> EmptyString
        <-> stderr r <> EmptyString)
    /\ (stderr r <> EmptyString ->
        Substring (stderr r) (written Stderr (log (python w))))
    /\ main w [] = (inr (SystemExit (returncode r)), log (python w))).
  { rewrite (main_returns _ Hread Hrun), (python_returns _ Hread Hrun).
    cbn [log]. rewrite !written_app.
    destruct (stderr r) as [|c err] eqn:Herr; cbn [PyStr.truthy];
      cbn [written prologue app]; rewrite ?print_text_one, ?print_text_two;
      rewrite ?append_empty_r; cbn [append].
    - split; [reflexivity|].
      split; [split; intros H; now contradiction H|].
      split; [intros H; now contradiction H | reflexivity].
    - split; [reflexivity|].
      split; [split; intros _; discriminate|].
      split; [|reflexivity].
      intros _.
      apply (Substring_inside "STDERR: " (String c err) PyStr.nl). }
  destruct Hstreams as (Hout & Hiff & Herr & Hmain).
  do 4 (split; [assumption|]).
  split; [exact Hexit|]. rewrite Hexit. split.
  - intros Hrange. apply Z.mod_small. lia.
  - intros Hrange. symmetry. apply (Z.mod_unique _ _ (-1)); lia.
Qed.

Lemma completed_run_is_mirrored_ok :
  written Stdout (log (python w_ok)) = "ok" ++ PyStr.nl
  /\ exit_status (python w_ok) = 0.
Proof.
  destruct (completed_run_is_mirrored w_ok (body := "echo hello")
              (r := mkCompleted "ok" EmptyString 0) eq_refl eq_refl)
    as (Hout & _ & _ & _ & Hstatus & _).
  split; assumption.
Defined.

(** C10: on the success path an empty captured standard error leaves the
    error stream untouched; a non-empty one is written once, after the
    literal STDERR: and a space, and ended by a newline; and the exit status
    is the return code whatever the captured standard error is. *)
Theorem stderr_is_framed
    (w : world) (body : string) (r : CompletedProcess) :
  fs_read w (script_path_of w) = inl body ->
  launcher w (expect_argv body) 600 = Returns r ->
  (stderr r = EmptyString -> writes Stderr (log (python w)) = [])
  /\ (stderr r <> EmptyString ->
      writes Stderr (log (python w)) = ["STDERR:" ++ " " ++ stderr r ++ PyStr.nl])
  /\ forall err : string,
       status (python (answering w (Returns (mkCompleted (stdout r) err (returncode r)))))
       = status (python w).
Proof.
  intros Hread Hrun. split; [|split].
  - intros Hempty. rewrite (python_returns _ Hread Hrun), Hempty. reflexivity.
  - intros Hfull. rewrite (python_returns _ Hread Hrun).
    apply truthy_true in Hfull. rewrite Hfull.
    cbn [log prologue app writes]. now rewrite print_text_two.
  - intros err.
    rewrite (python_returns _ Hread Hrun).
    now rewrite (@python_returns (answering w _) body
                   (mkCompleted (stdout r) err (returncode r)) Hread eq_refl).
Qed.

Lemma stderr_is_framed_refused :
  writes Stderr (log (python w_refused)) = ["STDERR: Permission denied" ++ PyStr.nl]
  /\ writes Stderr (log (python w_ok)) = []
  /\ status (python w_refused) = 7.
Proof.
  destruct (stderr_is_framed w_refused (body := "echo hello")
              (r := mkCompleted "spawn ssh" "Permission denied" 7) eq_refl eq_refl)
    as (_ & Hfull & _).
  split; [|split; reflexivity].
  apply Hfull. discriminate.
Defined.

(** ** The missing utility *)

Lemma fallback_text_has_notice :
  Substring "expect not found" fallback_text.
Proof. apply contains_sound. vm_compute. reflexivity. Qed.

Lemma fallback_text_has_recipe :
  Substring ("scp infra/setup-on-server.sh root@" ++ VPS_IP ++ ":/tmp/")
            fallback_text
  /\ Substring ("ssh root@" ++ VPS_IP) fallback_text
  /\ Substring "chmod +x /tmp/setup-on-server.sh" fallback_text.
Proof.
  repeat split; apply contains_sound; vm_compute; reflexivity.
Qed.

(** C2: when the automation utility cannot be found, the script prints the
    notice and the manual recipe, which names the host address, exits with
    status 1, and no child process has run, so no connection was opened. *)
Theorem missing_utility_falls_back (w : world) (body : string) :
  fs_read w (script_path_of w) = inl body ->
  launcher w (expect_argv body) 600 = Raises FileNotFoundError ->
  written Stdout (log (python w)) = fallback_text
  /\ Substring "expect not found" (written Stdout (log (python w)))
  /\ Substring ("scp infra/setup-on-server.sh root@" ++ VPS_IP ++ ":/tmp/")
               (written Stdout (log (python w)))
  /\ Substring VPS_IP (written Stdout (log (python w)))
  /\ status (python w) = 1
  /\ children (log (python w)) = [].
Proof.
  intros Hread Hrun.
  assert (Hout : written Stdout (log (python w)) = fallback_text).
  { rewrite (python_missing_utility _ Hread Hrun). cbn [log].
    rewrite !written_app. reflexivity. }
  rewrite Hout, (python_missing_utility _ Hread Hrun).
  split; [reflexivity|].
  split; [apply fallback_text_has_notice|].
  split; [apply fallback_text_has_recipe|].
  split; [|split; reflexivity].
  apply contains_sound. vm_compute. reflexivity.
Qed.

Lemma missing_utility_falls_back_no_expect :
  status (python w_no_expect) = 1
  /\ children (log (python w_no_expect)) = []
  /\ Substring "159.89.113.242" (written Stdout (log (python w_no_expect))).
Proof.
  destruct (missing_utility_falls_back w_no_expect (body := "echo hello")
              eq_refl eq_refl)
    as (_ & _ & _ & Hip & Hstatus & Hchildren).
  repeat split; assumption.
Defined.

(** C6, as the specification words it, fails: on the fallback path the
    manual recipe is on the standard output and the error stream is empty. *)
Lemma fallback_is_not_on_stderr :
  writes Stderr (log (python w_no_expect)) = []
  /\ PyStr.contains "Please run this command manually:"
       (written Stderr (log (python w_no_expect))) = false
  /\ PyStr.contains "Please run this command manually:"
       (written Stdout (log (python w_no_expect))) = true.
Proof.
  repeat split; vm_compute; reflexivity.
Qed.

(** C6, amended: the standard output carries the captured output of the
    session and, when the automation utility is missing, the notice and the
    manual recipe; the error stream carries the captured error text of the
    subprocess and nothing else, so on the fallback path nothing is written
    to it. *)
Theorem streams_by_path (w : world) (body : string) :
  fs_read w (script_path_of w) = inl body ->
  match launcher w (expect_argv body) 600 with
  | Returns r =>
      writes Stdout (log (python w)) = [stdout r ++ PyStr.nl]
      /\ writes Stderr (log (python w)) =
           if PyStr.truthy (stderr r)
           then ["STDERR: " ++ stderr r ++ PyStr.nl]
           else []
  | Raises FileNotFoundError =>
      written Stdout (log (python w)) = fallback_text
      /\ writes Stderr (log (python w)) = []
  | Raises _ =>
      writes Stdout (log (python w)) = []
      /\ writes Stderr (log (python w)) = []
  end.
Proof.
  intros Hread.
  destruct (launcher w (expect_argv body) 600) as [r|e] eqn:Hrun.
  - rewrite (python_returns _ Hread Hrun).
    destruct (PyStr.truthy (stderr r)); cbn [log prologue app writes];
      rewrite ?print_text_one, ?print_text_two; split; reflexivity.
  - assert (Hquiet : is_FileNotFoundError e = false ->
              writes Stdout (log (python w)) = []
              /\ writes Stderr (log (python w)) = []).
    { intros Hother. unfold python.
      rewrite (main_propagates _ Hread Hrun Hother).
      destruct e; split; reflexivity. }
    destruct e; try (apply Hquiet; reflexivity).
    rewrite (python_missing_utility _ Hread Hrun). cbn [log].
    rewrite !written_app. split; reflexivity.
Qed.

Lemma streams_by_path_no_expect :
  written Stdout (log (python w_no_expect)) = fallback_text
  /\ writes Stderr (log (python w_no_expect)) = [].
Proof.
  exact (streams_by_path w_no_expect (body := "echo hello") eq_refl).
Defined.

(** ** The missing bootstrap script *)

(** C5: when the bootstrap script file does not exist, the error of the read
    reaches the interpreter uncaught, the script itself writes nothing, the
    exit status is not zero, and [subprocess.run] is never called, so no child
    process and no connection. *)
Theorem missing_script_aborts (w : world) :
  fs_read w (script_path_of w) = inr FileNotFoundError ->
  traceback (python w) = Some FileNotFoundError
  /\ status (python w) = 1
  /\ status (python w) <> 0
  /\ writes Stdout (log (python w)) = []
  /\ writes Stderr (log (python w)) = []
  /\ runs (log (python w)) = []
  /\ children (log (python w)) = [].
Proof.
  intros Hread. rewrite (python_unreadable _ Hread).
  cbn [traceback status log writes runs children].
  repeat split. discriminate.
Qed.

Lemma missing_script_aborts_bare :
  status (python w_bare) = 1 /\ runs (log (python w_bare)) = [].
Proof.
  destruct (missing_script_aborts w_bare eq_refl)
    as (_ & Hstatus & _ & _ & _ & Hruns & _).
  split; assumption.
Defined.

(** C9: the read comes first.  When the bootstrap script file is absent the
    run ends at the read with its file-not-found error, whatever the state of
    the automation utility: the handler of the missing utility does not see
    that error, and nothing of the fallback is printed.  Conversely, anything
    the script prints is printed after the file was read. *)
Theorem read_error_takes_precedence (w : world) :
  (fs_read w (script_path_of w) = inr FileNotFoundError ->
   forall o : run_outcome,
     main (answering w o) [] =
       (inr FileNotFoundError,
        [ EvBind "script_path" (VStr (script_path_of w));
          EvOpen (script_path_of w) false ])
     /\ written Stdout (log (python (answering w o))) = EmptyString
     /\ traceback (python (answering w o)) = Some FileNotFoundError)
  /\ (forall (s : stream) (text : string),
        In (EvWrite s text) (log (python w)) ->
        exists body before after,
          fs_read w (script_path_of w) = inl body
          /\ log (python w) =
               (before ++ EvOpen (script_path_of w) true :: after)%list
          /\ In (EvWrite s text) after).
Proof.
  split.
  - intros Hread o.
    assert (Hread' : fs_read (answering w o) (script_path_of (answering w o))
                     = inr FileNotFoundError) by exact Hread.
    rewrite (python_unreadable _ Hread'), (main_unreadable _ Hread').
    repeat split.
  - intros s text Hin.
    destruct (fs_read w (script_path_of w)) as [body|e] eqn:Hread.
    + exists body, [EvBind "script_path" (VStr (script_path_of w))].
      assert (Hlog : exists after, log (python w) =
                ([EvBind "script_path" (VStr (script_path_of w))] ++
                 EvOpen (script_path_of w) true :: after)%list).
      { unfold python.
        destruct (launcher w (expect_argv body) 600) as [r|x] eqn:Hrun.
        - rewrite (main_returns _ Hread Hrun). eexists. reflexivity.
        - destruct (is_FileNotFoundError x) eqn:Hx.
          + destruct x; try discriminate.
            rewrite (main_missing_utility _ Hread Hrun). eexists. reflexivity.
          + rewrite (main_propagates _ Hread Hrun Hx).
            destruct x; try discriminate; eexists; reflexivity. }
      destruct Hlog as [after Hlog]. exists after.
      split; [reflexivity|]. split; [exact Hlog|].
      rewrite Hlog in Hin. cbn [app] in Hin.
      destruct Hin as [Hin|[Hin|Hin]]; try discriminate. exact Hin.
    + exfalso. unfold python in Hin. rewrite (main_unreadable _ Hread) in Hin.
      destruct e; cbn [log] in Hin;
        destruct Hin as [Hin|[Hin|[]]]; discriminate.
Qed.

Lemma read_error_takes_precedence_bare :
  written Stdout (log (python w_bare)) = EmptyString
  /\ traceback (python w_bare) = Some FileNotFoundError.
Proof.
  destruct (proj1 (read_error_takes_precedence w_bare) eq_refl
              (Raises FileNotFoundError)) as (_ & Hout & Htrace).
  split; assumption.
Defined.

(** ** The launch *)

Lemma log_python (w : world) : log (python w) = snd (main w []).
Proof.
  unfold python. destruct (main w []) as [[u|e] tr]; [reflexivity|].
  destruct e; reflexivity.
Qed.

(** Once the file is read, the log is the prologue, one call of
    [subprocess.run] and a remainder that binds neither the body nor the
    transcript again and launches nothing. *)
Lemma log_after_read (w : world) (body : string) :
  fs_read w (script_path_of w) = inl body ->
  exists tail,
    log (python w) =
      (prologue w body ++
       EvRun (expect_argv body) 600
             (child_started (launcher w (expect_argv body) 600)) :: tail)%list
    /\ bindings "expect_script" tail = []
    /\ bindings "setup_script" tail = []
    /\ runs tail = [].
Proof.
  intros Hread. rewrite log_python.
  destruct (launcher w (expect_argv body) 600) as [r|e] eqn:Hrun.
  - rewrite (main_returns _ Hread Hrun). eexists. split; [reflexivity|].
    destruct (PyStr.truthy (stderr r)); repeat split.
  - destruct (is_FileNotFoundError e) eqn:He.
    + destruct e; try discriminate.
      rewrite (main_missing_utility _ Hread Hrun). eexists.
      split; [reflexivity|]. repeat split.
    + rewrite (main_propagates _ Hread Hrun He). exists [].
      split; [reflexivity|]. repeat split.
Qed.

Lemma runs_app (a b : list event) : runs (a ++ b) = (runs a ++ runs b)%list.
Proof.
  induction a as [|[n v|p o|argv t st|s text] a IH]; simpl; congruence.
Qed.

Lemma bindings_app (name : string) (a b : list event) :
  bindings name (a ++ b) = (bindings name a ++ bindings name b)%list.
Proof.
  induction a as [|[n v|p o|argv t st|s text] a IH]; simpl; try congruence.
  destruct (n =? name)%string; simpl; congruence.
Qed.

Lemma In_runs (argv : list string) (t : Z) (st : bool) (tr : list event) :
  In (EvRun argv t st) tr -> In (argv, t) (runs tr).
Proof.
  induction tr as [|[n v|p o|argv' t' st'|s text] tr IH]; simpl; intros H;
    try (destruct H as [H|H]; [discriminate | now apply IH]).
  - contradiction.
  - destruct H as [H|H]; [left; congruence | right; now apply IH].
Qed.

(** C7: the call of the automation utility carries the timeout of 600
    seconds, and the [except] clause takes the missing utility only: any
    other exception of the call, the timeout among them, leaves the script
    as it is raised, with nothing printed by the script; for the timeout the
    interpreter ends the run with its traceback and status 1. *)
Theorem timeout_is_not_handled (w : world) (body : string) (e : pyexn) :
  fs_read w (script_path_of w) = inl body ->
  launcher w (expect_argv body) 600 = Raises e ->
  e <> FileNotFoundError ->
  runs (log (python w)) = [(expect_argv body, 600)]
  /\ fst (main w []) = inr e
  /\ writes Stdout (log (python w)) = []
  /\ writes Stderr (log (python w)) = []
  /\ (e = TimeoutExpired ->
      traceback (python w) = Some TimeoutExpired
      /\ status (python w) = 1
      /\ children (log (python w)) = [expect_argv body]).
Proof.
  intros Hread Hrun Hne.
  assert (He : is_FileNotFoundError e = false)
    by (destruct e; try reflexivity; now contradiction Hne).
  rewrite log_python.
  split; [|split; [|split; [|split]]].
  1-4: rewrite (main_propagates _ Hread Hrun He); reflexivity.
  intros ->. unfold python. rewrite (main_propagates _ Hread Hrun He).
  repeat split.
Qed.

Lemma timeout_is_not_handled_slow :
  runs (log (python w_slow)) = [(expect_argv "echo hello", 600)]
  /\ traceback (python w_slow) = Some TimeoutExpired
  /\ writes Stdout (log (python w_slow)) = [].
Proof.
  destruct (timeout_is_not_handled w_slow (body := "echo hello")
              (e := TimeoutExpired) eq_refl eq_refl)
    as (Hruns & _ & Hout & _ & Htimeout).
  - discriminate.
  - destruct (Htimeout eq_refl) as (Htrace & _ & _).
    repeat split; assumption.
Defined.

(** C4: the transcript is a function of the host, the user, the password
    and the contents of the bootstrap script, and of nothing else: two runs
    that read the same contents, in whatever environments, build the same
    text and hand the same command line to the automation utility. *)
Theorem transcript_is_deterministic (w1 w2 : world) (body : string) :
  fs_read w1 (script_path_of w1) = inl body ->
  fs_read w2 (script_path_of w2) = inl body ->
  bindings "expect_script" (log (python w1)) =
    [VStr (expect_script_of VPS_USER VPS_IP VPS_PASS body)]
  /\ bindings "expect_script" (log (python w2)) =
       bindings "expect_script" (log (python w1))
  /\ runs (log (python w1)) =
       [(["expect"; "-c"; expect_script_of VPS_USER VPS_IP VPS_PASS body], 600)]
  /\ runs (log (python w2)) = runs (log (python w1)).
Proof.
  intros H1 H2.
  destruct (log_after_read _ H1) as (t1 & -> & Hb1 & _ & Hr1).
  destruct (log_after_read _ H2) as (t2 & -> & Hb2 & _ & Hr2).
  rewrite !bindings_app, !runs_app. cbn [bindings runs prologue String.eqb
    Ascii.eqb Bool.eqb app]. simpl bindings. simpl runs.
  rewrite Hb1, Hb2, Hr1, Hr2. repeat split.
Qed.

Lemma transcript_is_deterministic_ok_slow :
  runs (log (python w_slow)) = runs (log (python w_ok))
  /\ bindings "expect_script" (log (python w_slow)) =
       bindings "expect_script" (log (python w_ok)).
Proof.
  destruct (transcript_is_deterministic w_ok w_slow (body := "echo hello")
              eq_refl eq_refl) as (_ & Hbind & _ & Hruns).
  split; assumption.
Defined.

(** ** Construction before launch *)

(** C8: in every run that reaches the launch, the name [expect_script] is
    bound, immediately before the call, to the complete transcript, which
    holds the password and the whole bootstrap script; the command line of
    the call carries that very text; and the name is bound once in the whole
    run, so the text is never changed afterwards. *)
Theorem transcript_precedes_launch
    (w : world) (argv : list string) (t : Z) (started : bool) :
  In (EvRun argv t started) (log (python w)) ->
  exists body before after,
    fs_read w (script_path_of w) = inl body
    /\ log (python w) =
         (before ++ EvBind "expect_script" (VStr (expect_script body))
                 :: EvRun argv t started :: after)%list
    /\ argv = ["expect"; "-c"; expect_script body]
    /\ runs before = []
    /\ bindings "expect_script" (log (python w)) = [VStr (expect_script body)]
    /\ Substring VPS_PASS (expect_script body)
    /\ Substring body (expect_script body).
Proof.
  intros Hin.
  destruct (fs_read w (script_path_of w)) as [body|e] eqn:Hread.
  - destruct (log_after_read _ Hread) as (tail & Hlog & Hbind & _ & Hruns).
    rewrite Hlog in Hin. apply in_app_or in Hin.
    destruct Hin as [Hin|[Hin|Hin]].
    + cbn [prologue In] in Hin.
      destruct Hin as [Hin|[Hin|[Hin|[Hin|[]]]]]; discriminate.
    + injection Hin as <- <- <-.
      exists body,
        [ EvBind "script_path" (VStr (script_path_of w));
          EvOpen (script_path_of w) true;
          EvBind "setup_script" (VStr body) ], tail.
      split; [reflexivity|]. split; [exact Hlog|].
      split; [reflexivity|]. split; [reflexivity|].
      split.
      * rewrite Hlog, bindings_app. cbn [bindings]. rewrite Hbind.
        reflexivity.
      * split; [apply password_in_transcript | apply body_in_transcript].
    + apply In_runs in Hin. rewrite Hruns in Hin. contradiction.
  - exfalso. rewrite log_python, (main_unreadable _ Hread) in Hin.
    destruct Hin as [Hin|[Hin|[]]]; discriminate.
Qed.

Lemma transcript_precedes_launch_ok :
  exists body before after,
    fs_read w_ok (script_path_of w_ok) = inl body
    /\ log (python w_ok) =
         (before ++ EvBind "expect_script" (VStr (expect_script body))
                 :: EvRun (expect_argv "echo hello") 600 true :: after)%list
    /\ bindings "expect_script" (log (python w_ok)) = [VStr (expect_script body)].
Proof.
  destruct (@transcript_precedes_launch w_ok (expect_argv "echo hello") 600 true)
    as (body & before & after & Hread & Hlog & _ & _ & Hbind & _).
  - vm_compute. tauto.
  - exists body, before, after. repeat split; assumption.
Defined.

(** * Further properties of the script *)

(** ** Every run, in full *)

(** The log of a run is decided by two answers of the environment: what the
    read gives and, when it gives the body, what the launch comes to. *)
Lemma log_by_cases (w : world) :
  log (python w) =
    match fs_read w (script_path_of w) with
    | inr _ =>
        [ EvBind "script_path" (VStr (script_path_of w));
          EvOpen (script_path_of w) false ]
    | inl body =>
        (prologue w body ++
         EvRun (expect_argv body) 600
               (child_started (launcher w (expect_argv body) 600))
         :: epilogue (launcher w (expect_argv body) 600))%list
    end.
Proof.
  rewrite log_python.
  destruct (fs_read w (script_path_of w)) as [body|e] eqn:Hread.
  - destruct (launcher w (expect_argv body) 600) as [r|x] eqn:Hrun.
    + now rewrite (main_returns _ Hread Hrun).
    + destruct (is_FileNotFoundError x) eqn:Hx.
      * destruct x; try discriminate.
        now rewrite (main_missing_utility _ Hread Hrun).
      * rewrite (main_propagates _ Hread Hrun Hx).
        destruct x; try discriminate; reflexivity.
  - now rewrite (main_unreadable _ Hread).
Qed.

Lemma opens_epilogue (o : run_outcome) : opens (epilogue o) = [].
Proof.
  destruct o as [r|e]; [|destruct e; reflexivity].
  cbn [epilogue]. destruct (PyStr.truthy (stderr r)); reflexivity.
Qed.

Lemma runs_epilogue (o : run_outcome) : runs (epilogue o) = [].
Proof.
  destruct o as [r|e]; [|destruct e; reflexivity].
  cbn [epilogue]. destruct (PyStr.truthy (stderr r)); reflexivity.
Qed.

Lemma children_epilogue (o : run_outcome) : children (epilogue o) = [].
Proof.
  destruct o as [r|e]; [|destruct e; reflexivity].
  cbn [epilogue]. destruct (PyStr.truthy (stderr r)); reflexivity.
Qed.

(** X1: no error of the read is handled.  Whatever exception reading the
    bootstrap script raises (permission denied, a directory, undecodable
    bytes), the run ends there with that exception: nothing is printed and
    [subprocess.run] is not called. *)
Theorem read_errors_are_fatal (w : world) (e : pyexn) :
  fs_read w (script_path_of w) = inr e ->
  fst (main w []) = inr e
  /\ log (python w) =
       [ EvBind "script_path" (VStr (script_path_of w));
         EvOpen (script_path_of w) false ]
  /\ writes Stdout (log (python w)) = []
  /\ writes Stderr (log (python w)) = []
  /\ runs (log (python w)) = []
  /\ ((forall c : Z, e <> SystemExit c) ->
      status (python w) = 1 /\ traceback (python w) = Some e).
Proof.
  intros Hread.
  rewrite log_python, (main_unreadable _ Hread).
  do 5 (split; [reflexivity|]).
  intros Hexn. unfold python. rewrite (main_unreadable _ Hread).
  destruct e; try (split; reflexivity).
  now contradiction (Hexn code).
Qed.

Lemma read_errors_are_fatal_denied :
  traceback (python w_denied) = Some PermissionError
  /\ runs (log (python w_denied)) = [].
Proof.
  destruct (read_errors_are_fatal w_denied (e := PermissionError) eq_refl)
    as (_ & _ & _ & _ & Hruns & Hstatus).
  destruct Hstatus as (_ & Htrace); [discriminate|].
  split; assumption.
Defined.

(** X2: in every run the script opens one file, once: the sibling path of
    line 11, and that open is the first thing it does after computing the
    path. *)
Theorem one_file_is_opened (w : world) :
  opens (log (python w)) = [script_path_of w]
  /\ exists (opened : bool) (rest : list event),
       log (python w) =
         EvBind "script_path" (VStr (script_path_of w))
         :: EvOpen (script_path_of w) opened :: rest
       /\ opens rest = [].
Proof.
  rewrite log_by_cases.
  destruct (fs_read w (script_path_of w)) as [body|e].
  - split.
    + cbn [prologue app opens]. now rewrite opens_epilogue.
    + exists true. eexists. split; [reflexivity|].
      cbn [opens]. apply opens_epilogue.
  - split; [reflexivity|]. exists false, []. split; reflexivity.
Qed.

(** X3: there is no retry.  A run calls [subprocess.run] at most once, and
    exactly once when the bootstrap script was read; the call is always
    [expect -c] with the transcript of the body read, under the timeout of
    600 seconds, whatever the launch comes to. *)
Theorem at_most_one_launch (w : world) :
  runs (log (python w)) =
    match fs_read w (script_path_of w) with
    | inl body => [(["expect"; "-c"; expect_script body], 600)]
    | inr _ => []
    end.
Proof.
  rewrite log_by_cases.
  destruct (fs_read w (script_path_of w)) as [body|e]; [|reflexivity].
  cbn [prologue app runs]. now rewrite runs_epilogue.
Qed.

(** X4: no child process without the bootstrap script, and never more than
    one.  When the read fails no process runs.  A child that ran is the one
    [expect -c] process with the transcript of the body read, and the run has
    no other.  The child has run when the call returned and when the timeout
    cut it; none has when the utility is missing. *)
Theorem child_needs_the_script (w : world) :
  (forall e : pyexn,
     fs_read w (script_path_of w) = inr e -> children (log (python w)) = [])
  /\ (forall argv : list string,
        In argv (children (log (python w))) ->
        exists body : string,
          fs_read w (script_path_of w) = inl body
          /\ argv = ["expect"; "-c"; expect_script body]
          /\ children (log (python w)) = [argv])
  /\ (forall (body : string) (r : CompletedProcess),
        fs_read w (script_path_of w) = inl body ->
        launcher w (expect_argv body) 600 = Returns r ->
        children (log (python w)) = [expect_argv body])
  /\ (forall body : string,
        fs_read w (script_path_of w) = inl body ->
        launcher w (expect_argv body) 600 = Raises TimeoutExpired ->
        children (log (python w)) = [expect_argv body])
  /\ (forall body : string,
        fs_read w (script_path_of w) = inl body ->
        launcher w (expect_argv body) 600 = Raises FileNotFoundError ->
        children (log (python w)) = []).
Proof.
  assert (Hchildren : forall body : string,
            fs_read w (script_path_of w) = inl body ->
            children (log (python w)) =
              if child_started (launcher w (expect_argv body) 600)
              then [expect_argv body] else []).
  { intros body Hread. rewrite log_by_cases, Hread.
    cbn [prologue app children].
    destruct (child_started (launcher w (expect_argv body) 600));
      now rewrite children_epilogue. }
  split; [|split; [|split; [|split]]].
  - intros e Hread. now rewrite log_by_cases, Hread.
  - intros argv Hin.
    destruct (fs_read w (script_path_of w)) as [body|e] eqn:Hread.
    + exists body. split; [reflexivity|].
      rewrite (Hchildren body eq_refl) in Hin |- *.
      destruct (child_started (launcher w (expect_argv body) 600)).
      * destruct Hin as [<-|[]]. split; reflexivity.
      * contradiction.
    + rewrite log_by_cases, Hread in Hin. contradiction.
  - intros body r Hread Hrun. now rewrite (Hchildren body Hread), Hrun.
  - intros body Hread Hrun. now rewrite (Hchildren body Hread), Hrun.
  - intros body Hread Hrun. now rewrite (Hchildren body Hread), Hrun.
Qed.

(** ** What the exit status and the output tell *)

Lemma status_by_cases (w : world) :
  raises_no_exit w ->
  status (python w) =
    match fs_read w (script_path_of w) with
    | inl body =>
        match launcher w (expect_argv body) 600 with
        | Returns r => returncode r
        | Raises _ => 1
        end
    | inr _ => 1
    end.
Proof.
  intros [Hfs Hrun].
  destruct (fs_read w (script_path_of w)) as [body|e] eqn:Hread.
  - destruct (launcher w (expect_argv body) 600) as [r|x] eqn:Hl.
    + now rewrite (python_returns _ Hread Hl).
    + destruct (is_FileNotFoundError x) eqn:Hx.
      * destruct x; try discriminate.
        now rewrite (python_missing_utility _ Hread Hl).
      * unfold python. rewrite (main_propagates _ Hread Hl Hx).
        destruct x; try reflexivity. now contradiction (Hrun _ _ _ Hl).
  - unfold python. rewrite (main_unreadable _ Hread).
    destruct e; try reflexivity. now contradiction (Hfs _ _ Hread).
Qed.

(** X5: the exit status 0 is a reliable sign of success.  In an environment
    that raises errors of its own only, the run exits with status 0 exactly
    when the bootstrap script was read, [expect] was launched and returned,
    and its return code was 0; the fallback and every uncaught error give a
    status other than 0. *)
Theorem zero_status_means_success (w : world) :
  raises_no_exit w ->
  (status (python w) = 0 <->
   exists (body : string) (r : CompletedProcess),
     fs_read w (script_path_of w) = inl body
     /\ launcher w (expect_argv body) 600 = Returns r
     /\ returncode r = 0).
Proof.
  intros Hw. rewrite (status_by_cases Hw).
  destruct (fs_read w (script_path_of w)) as [body|e].
  - destruct (launcher w (expect_argv body) 600) as [r|x] eqn:Hl.
    + split.
      * intros H0. now exists body, r.
      * intros (b & r' & Hb & Hr & H0). injection Hb as <-.
        rewrite Hl in Hr. now injection Hr as <-.
    + split; [discriminate|].
      intros (b & r' & Hb & Hr & _). injection Hb as <-.
      rewrite Hl in Hr. discriminate.
  - split; [discriminate|].
    intros (b & r' & Hb & _). discriminate.
Qed.

Lemma on_disk_raises_no_exit (files : list (string * string)) (p : string) (c : Z) :
  on_disk files p <> inr (SystemExit c).
Proof.
  induction files as [|[q text] files IH]; simpl; [discriminate|].
  destruct (q =? p)%string; [discriminate | exact IH].
Qed.

Lemma zero_status_means_success_ok :
  exists (body : string) (r : CompletedProcess),
    fs_read w_ok (script_path_of w_ok) = inl body
    /\ launcher w_ok (expect_argv body) 600 = Returns r
    /\ returncode r = 0.
Proof.
  apply (zero_status_means_success (w := w_ok)).
  - split.
    + intros p c. apply on_disk_raises_no_exit.
    + intros argv t c. discriminate.
  - reflexivity.
Defined.

Lemma written_by_cases (w : world) (s : stream) :
  written s (log (python w)) =
    match fs_read w (script_path_of w) with
    | inl body =>
        match launcher w (expect_argv body) 600, s with
        | Returns r, Stdout => stdout r ++ PyStr.nl
        | Returns r, Stderr =>
            if PyStr.truthy (stderr r)
            then "STDERR: " ++ stderr r ++ PyStr.nl
            else EmptyString
        | Raises FileNotFoundError, Stdout => fallback_text
        | Raises _, _ => EmptyString
        end
    | inr _ => EmptyString
    end.
Proof.
  rewrite log_by_cases.
  destruct (fs_read w (script_path_of w)) as [body|e];
    [|destruct s; reflexivity].
  rewrite written_app.
  destruct (launcher w (expect_argv body) 600) as [r|x].
  - cbn [epilogue]. destruct (PyStr.truthy (stderr r)), s;
      cbn [written prologue app]; rewrite ?print_text_one, ?print_text_two;
      rewrite ?append_empty_r; reflexivity.
  - destruct x, s; reflexivity.
Qed.

(** X6: of the prints of the script, only the two that mirror the session
    can show the password.  If the password occurs in what the prints of a
    run wrote to a stream, then the session was launched and returned, and
    that text is the mirrored output of the session: the notice and the
    recipe never hold it.  This is about the prints only.  When the call is
    cut by the timeout, the exception that reaches the interpreter uncaught
    belongs to a call whose command line holds the password, so the
    traceback of that run is not covered here, and is not free of it. *)
Theorem prints_show_password_only_mirrored (w : world) :
  (forall s : stream,
     PyStr.contains VPS_PASS (written s (log (python w))) = true ->
     exists (body : string) (r : CompletedProcess),
       fs_read w (script_path_of w) = inl body
       /\ launcher w (expect_argv body) 600 = Returns r
       /\ written s (log (python w)) = mirrored s r)
  /\ (forall body : string,
        fs_read w (script_path_of w) = inl body ->
        launcher w (expect_argv body) 600 = Raises TimeoutExpired ->
        traceback (python w) = Some TimeoutExpired
        /\ exists transcript : string,
             runs (log (python w)) = [(["expect"; "-c"; transcript], 600)]
             /\ Substring VPS_PASS transcript).
Proof.
  split.
  - intros s. rewrite written_by_cases.
    destruct (fs_read w (script_path_of w)) as [body|e]; [|discriminate].
    destruct (launcher w (expect_argv body) 600) as [r|x] eqn:Hl.
    + intros Hin. exists body, r.
      split; [reflexivity|]. split; [exact Hl|].
      destruct s; [reflexivity|].
      destruct (PyStr.truthy (stderr r)); [reflexivity | discriminate].
    + intros Hin. exfalso.
      destruct x, s; vm_compute in Hin; discriminate.
  - intros body Hread Hrun. split.
    + unfold python.
      now rewrite (main_propagates _ Hread Hrun eq_refl).
    + exists (expect_script body). split.
      * rewrite log_python, (main_propagates _ Hread Hrun eq_refl).
        reflexivity.
      * apply password_in_transcript.
Qed.

Lemma prints_show_password_only_mirrored_echo :
  exists (body : string) (r : CompletedProcess),
    fs_read w_echo (script_path_of w_echo) = inl body
    /\ launcher w_echo (expect_argv body) 600 = Returns r
    /\ written Stdout (log (python w_echo)) = mirrored Stdout r.
Proof.
  apply (proj1 (prints_show_password_only_mirrored w_echo) Stdout).
  vm_compute. reflexivity.
Defined.

(** ** Where the bootstrap script is looked for *)

Lemma rfind_from_absent (s : string) (i acc : Z) :
  slash_free s = true -> PyStr.rfind_from PyStr.slash s i acc = acc.
Proof.
  revert i acc. induction s as [|a s IH]; intros i acc H; [reflexivity|].
  cbn [slash_free] in H. apply andb_true_iff in H as [Ha Hs].
  cbn [PyStr.rfind_from]. apply negb_true_iff in Ha. rewrite Ha.
  now apply IH.
Qed.

Lemma rfind_from_last (a b : string) (i acc : Z) :
  slash_free b = true ->
  PyStr.rfind_from PyStr.slash (a ++ String PyStr.slash b) i acc
  = i + Z.of_nat (String.length a).
Proof.
  intros Hb. revert i acc. induction a as [|x a IH]; intros i acc.
  - cbn [append PyStr.rfind_from String.length]. rewrite Ascii.eqb_refl.
    rewrite rfind_from_absent by exact Hb. cbn. lia.
  - cbn [append PyStr.rfind_from String.length]. rewrite IH. lia.
Qed.

Lemma substring_through (a s : string) (k : nat) :
  substring 0 (String.length a + k) (a ++ s) = a ++ substring 0 k s.
Proof.
  induction a as [|x a IH]; [reflexivity|].
  cbn [String.length Nat.add append substring]. now rewrite IH.
Qed.

Lemma substring_one (c : ascii) (s : string) :
  substring 0 1 (String c s) = String c EmptyString.
Proof. cbn [substring]. now destruct s. Qed.

Lemma only_slashes_str_mul (n : nat) :
  only_slashes (PyStr.str_mul OsPath.sep n) = true.
Proof. induction n as [|n IH]; [reflexivity | exact IH]. Qed.

Lemma only_slashes_app (a b : string) :
  only_slashes (a ++ b) = only_slashes a && only_slashes b.
Proof.
  induction a as [|x a IH]; [reflexivity|].
  cbn [append only_slashes]. now rewrite IH, andb_assoc.
Qed.

Lemma only_slashes_endswith (a : string) :
  a <> EmptyString -> only_slashes a = true ->
  PyStr.endswith PyStr.slash a = true.
Proof.
  induction a as [|x a IH]; intros Hne H; [now contradiction Hne|].
  cbn [only_slashes] in H. apply andb_true_iff in H as [Hx Ha].
  destruct a as [|y a]; [exact Hx|].
  cbn [PyStr.endswith]. apply IH; [discriminate | exact Ha].
Qed.

Lemma rstrip_through_sep (a : string) :
  PyStr.rstrip PyStr.slash (a ++ OsPath.sep) = PyStr.rstrip PyStr.slash a.
Proof.
  induction a as [|x a IH]; [reflexivity|].
  cbn [append PyStr.rstrip]. now rewrite IH.
Qed.

Lemma rstrip_cons (x : ascii) (r : string) :
  PyStr.rstrip PyStr.slash (String x r) =
    match PyStr.rstrip PyStr.slash r with
    | EmptyString =>
        if Ascii.eqb x PyStr.slash then EmptyString else String x EmptyString
    | String y r' => String x (String y r')
    end.
Proof. reflexivity. Qed.

Lemma rstrip_nothing (a : string) :
  PyStr.endswith PyStr.slash a = false -> PyStr.rstrip PyStr.slash a = a.
Proof.
  induction a as [|x a IH]; intros H; [reflexivity|].
  destruct a as [|y a].
  - cbn [PyStr.endswith] in H. cbn [PyStr.rstrip]. now rewrite H.
  - cbn [PyStr.endswith] in H. rewrite rstrip_cons, (IH H).
    reflexivity.
Qed.

Lemma endswith_through_sep (a : string) :
  PyStr.endswith PyStr.slash (a ++ OsPath.sep) = true.
Proof.
  induction a as [|x a IH]; [reflexivity|].
  cbn [append]. destruct (a ++ OsPath.sep) eqn:E.
  - destruct a; discriminate.
  - cbn [PyStr.endswith]. exact IH.
Qed.

Lemma truthy_app_sep (a : string) : PyStr.truthy (a ++ OsPath.sep) = true.
Proof. now destruct a. Qed.

(** The head that [dirname] works on: everything up to the last separator,
    that separator included. *)
Lemma dirname_of_split (a b : string) :
  slash_free b = true ->
  OsPath.dirname (a ++ String PyStr.slash b) =
    if negb ((a ++ OsPath.sep) =?
             PyStr.str_mul OsPath.sep (String.length (a ++ OsPath.sep)))%string
    then PyStr.rstrip PyStr.slash a
    else a ++ OsPath.sep.
Proof.
  intros Hb. unfold OsPath.dirname, PyStr.rfind, PyStr.slice_to.
  rewrite rfind_from_last by exact Hb.
  replace (Z.to_nat (0 + Z.of_nat (String.length a) + 1))
    with (String.length a + 1)%nat by lia.
  rewrite substring_through, substring_one.
  change (String PyStr.slash EmptyString) with OsPath.sep.
  rewrite truthy_app_sep, rstrip_through_sep. reflexivity.
Qed.

(** X7: whatever the path of the running script, the file the script opens
    is named [setup-on-server.sh]: the path of line 11 is that name, alone
    or after a directory part that ends with a separator. *)
Theorem script_path_names_the_sibling (w : world) :
  exists dir : string,
    script_path_of w = dir ++ "setup-on-server.sh"
    /\ (dir = EmptyString \/ PyStr.endswith PyStr.slash dir = true)
    /\ opens (log (python w)) = [dir ++ "setup-on-server.sh"].
Proof.
  assert (Hpath : exists dir : string,
            script_path_of w = dir ++ "setup-on-server.sh"
            /\ (dir = EmptyString \/ PyStr.endswith PyStr.slash dir = true)).
  { unfold script_path_of, OsPath.join.
    cbn [PyStr.startswith Ascii.eqb Bool.eqb PyStr.slash].
    destruct (OsPath.dirname (dunder_file w)) as [|x d].
    - exists EmptyString. split; [reflexivity | now left].
    - cbn [PyStr.truthy negb orb].
      destruct (PyStr.endswith PyStr.slash (String x d)) eqn:Hend.
      + exists (String x d). split; [reflexivity | now right].
      + exists (String x d ++ OsPath.sep). split.
        * now rewrite append_assoc.
        * right. apply endswith_through_sep. }
  destruct Hpath as (dir & Hpath & Hdir). exists dir.
  split; [exact Hpath|]. split; [exact Hdir|].
  rewrite <- Hpath. rewrite log_by_cases.
  destruct (fs_read w (script_path_of w)) as [body|e]; [|reflexivity].
  cbn [prologue app opens]. now rewrite opens_epilogue.
Qed.

(** X8: started by a path with a directory part, the script reads the
    bootstrap script from that directory, not from the working directory:
    for [dir/base], where [dir] is not empty and does not end with a
    separator and [base] holds none, the path opened is
    [dir/setup-on-server.sh]. *)
Theorem script_is_read_beside_the_runner (w : world) (dir base : string) :
  dunder_file w = dir ++ "/" ++ base ->
  dir <> EmptyString ->
  PyStr.endswith PyStr.slash dir = false ->
  slash_free base = true ->
  script_path_of w = dir ++ "/" ++ "setup-on-server.sh".
Proof.
  intros Hfile Hne Hend Hbase.
  unfold script_path_of. rewrite Hfile.
  change ("/" ++ base) with (String PyStr.slash base).
  rewrite dirname_of_split by exact Hbase.
  assert (Hmixed : ((dir ++ OsPath.sep) =?
            PyStr.str_mul OsPath.sep (String.length (dir ++ OsPath.sep)))%string
            = false).
  { apply String.eqb_neq. intros Heq.
    pose proof (only_slashes_str_mul (String.length (dir ++ OsPath.sep))) as H.
    rewrite <- Heq, only_slashes_app in H.
    apply andb_true_iff in H as [H _].
    rewrite (only_slashes_endswith Hne H) in Hend. discriminate. }
  rewrite Hmixed. cbn [negb]. rewrite rstrip_nothing by exact Hend.
  unfold OsPath.join.
  cbn [PyStr.startswith Ascii.eqb Bool.eqb PyStr.slash].
  rewrite Hend. destruct dir; [now contradiction Hne | reflexivity].
Qed.

Lemma script_is_read_beside_the_runner_abs :
  script_path_of w_abs = "/opt/avallon/infra" ++ "/" ++ "setup-on-server.sh".
Proof.
  apply (@script_is_read_beside_the_runner w_abs
           "/opt/avallon/infra" "remote-setup.py").
  - reflexivity.
  - discriminate.
  - reflexivity.
  - reflexivity.
Defined.

(** X9: started by a bare file name, the script looks for the bootstrap
    script under its bare name too, that is in the working directory of the
    process. *)
Theorem bare_runner_reads_from_cwd (w : world) :
  slash_free (dunder_file w) = true ->
  script_path_of w = "setup-on-server.sh".
Proof.
  intros Hbare. unfold script_path_of, OsPath.dirname, PyStr.rfind.
  rewrite rfind_from_absent by exact Hbare.
  unfold PyStr.slice_to. change (Z.to_nat (-1 + 1)) with 0%nat.
  assert (Hnone : substring 0 0 (dunder_file w) = EmptyString)
    by now destruct (dunder_file w).
  rewrite Hnone. reflexivity.
Qed.

Lemma bare_runner_reads_from_cwd_here :
  script_path_of w_cwd = "setup-on-server.sh".
Proof.
  apply (bare_runner_reads_from_cwd w_cwd). reflexivity.
Defined.

(** ** The body inside the transcript *)

Lemma append_cancel_l (a x y : string) : a ++ x = a ++ y -> x = y.
Proof.
  induction a as [|c a IH]; intros H; [exact H|].
  cbn [append] in H. injection H as H. now apply IH.
Qed.

Lemma length_app (a b : string) :
  String.length (a ++ b) = (String.length a + String.length b)%nat.
Proof.
  induction a as [|c a IH]; [reflexivity|].
  cbn [append String.length]. now rewrite IH.
Qed.

Lemma append_cancel_r (x y s : string) : x ++ s = y ++ s -> x = y.
Proof.
  revert y. induction x as [|c x IH]; intros [|d y] H.
  - reflexivity.
  - exfalso. apply (f_equal String.length) in H.
    cbn [append String.length] in H. rewrite length_app in H. lia.
  - exfalso. apply (f_equal String.length) in H.
    cbn [append String.length] in H. rewrite length_app in H. lia.
  - cbn [append] in H. injection H as -> H. now rewrite (IH _ H).
Qed.

(** What stands before and after the body, whatever the body is. *)
Lemma transcript_frame (user ip pass : string) :
  exists pre post : string,
    forall body : string,
      expect_script_of user ip pass body = pre ++ body ++ post.
Proof.
  exists (unlines ("#!/usr/bin/expect -f" ::
                   firstn 6 (described_session user ip pass EmptyString))
          ++ "send " ++ PyStr.dq),
         (PyStr.dq ++ PyStr.nl ++
          unlines (skipn 7 (described_session user ip pass EmptyString))).
  intros body.
  unfold expect_script_of, described_session, firstn, skipn, unlines,
    quoted, cr.
  repeat rewrite append_assoc.
  reflexivity.
Qed.

(** X10: the transcript carries the bootstrap script unchanged.  The text
    around the body is the same for every body, nothing in the body is
    escaped or dropped, so the transcript grows by exactly the length of the
    body and two different bodies never give the same transcript. *)
Theorem transcript_keeps_the_body :
  (exists pre post : string,
     forall body : string,
       expect_script body = pre ++ body ++ post
       /\ String.length (expect_script body) =
            (String.length (expect_script EmptyString) + String.length body)%nat)
  /\ (forall b1 b2 : string,
        expect_script b1 = expect_script b2 <-> b1 = b2).
Proof.
  destruct (transcript_frame VPS_USER VPS_IP VPS_PASS) as (pre & post & Hof).
  assert (Hframe : forall body, expect_script body = pre ++ body ++ post)
    by (intro body; apply Hof).
  clear Hof. split.
  - exists pre, post. intros body. split; [apply Hframe|].
    rewrite (Hframe body), (Hframe EmptyString), !length_app.
    cbn [String.length]. lia.
  - intros b1 b2. split; [|now intros ->].
    rewrite (Hframe b1), (Hframe b2). intros H.
    apply append_cancel_l in H. now apply append_cancel_r in H.
Qed.
